(** * BracketMot: the L-bracket sizing computation of [BracketMot.py]

    A shallow embedding of [src/BracketMot.py] and the properties its
    specification states about it.

    Numbers.  The program computes with Python [float]s.  The main
    development reads them as exact rationals ([Q]): the specification
    speaks of real-valued lengths.  Module [Binary64] embeds the same
    formulas a second time over IEEE-754 binary64 numbers (Rocq's
    primitive floats), as the interpreter evaluates them.  Order and
    monotonicity survive rounding; an exact equality or a tight bound
    between rounded results need not, and where the two readings part
    the statement says which one it is about.

    The CAD kernel.  [cadquery] is an external library.  Its calls are
    kept as symbolic terms ([Shape]); only the few conventions the program
    relies on are modelled (a circle drawn on a workplane with no pushed
    points sits at the workplane origin). *)

From Stdlib Require Import QArith Qminmax Lqa Lia List String Bool.
From Stdlib Require Import Floats.PrimFloat.
From Stdlib Require Import Floats.FloatOps Floats.FloatAxioms Floats.SpecFloat.
Import ListNotations.

Local Open Scope Q_scope.

(* ------------------------------------------------------------------ *)
(** ** Python builtins used by the program *)

(** [max(a, b)] keeps its first argument unless the second is strictly
    greater. *)
Definition py_max (a b : Q) : Q :=
  match b ?= a with
  | Gt => b
  | _ => a
  end.

(** [min(a, b)] keeps its first argument unless the second is strictly
    smaller. *)
Definition py_min (a b : Q) : Q :=
  match b ?= a with
  | Lt => b
  | _ => a
  end.

(** A 2D point, a Python pair of floats. *)
Definition Point2 : Type := Q * Q.

Definition Vec3 : Type := Q * Q * Q.

(* ------------------------------------------------------------------ *)
(** ** The two dataclasses *)

Record MotorFixedSpec : Type := mkMotorFixedSpec {
  flange_size : Q;
  body_diameter : Q;
  mount_hole_pitch : Q;
  mount_hole_diameter : Q;
  mount_hole_clearance : Q;
  pilot_diameter : Q;
  pilot_clearance : Q
}.

(** [MotorFixedSpec()] : every field at its dataclass default. *)
Definition MotorFixedSpec_default : MotorFixedSpec := {|
  flange_size := 60.0;
  body_diameter := 60.0;
  mount_hole_pitch := 49.5;
  mount_hole_diameter := 4.5;
  mount_hole_clearance := 0.5;
  pilot_diameter := 54.0;
  pilot_clearance := 2.0
|}.

Record BracketParams : Type := mkBracketParams {
  thickness : Q;
  hole_edge_margin : Q;
  body_clearance : Q;
  top_margin : Q;
  base_length_extra : Q;
  base_hole_diameter : Q;
  base_hole_edge_offset : Q
}.

(** [BracketParams()] : every field at its dataclass default. *)
Definition BracketParams_default : BracketParams := {|
  thickness := 5.0;
  hole_edge_margin := 12.0;
  body_clearance := 8.0;
  top_margin := 10.0;
  base_length_extra := 20.0;
  base_hole_diameter := 6.6;
  base_hole_edge_offset := 18.0
|}.

(** [BracketParams(thickness=th)] : the keyword argument replaces one
    default, the other six fields keep theirs. *)
Definition BracketParams_of_thickness (th : Q) : BracketParams := {|
  thickness := th;
  hole_edge_margin := hole_edge_margin BracketParams_default;
  body_clearance := body_clearance BracketParams_default;
  top_margin := top_margin BracketParams_default;
  base_length_extra := base_length_extra BracketParams_default;
  base_hole_diameter := base_hole_diameter BracketParams_default;
  base_hole_edge_offset := base_hole_edge_offset BracketParams_default
|}.

(* ------------------------------------------------------------------ *)
(** ** The geometry kernel, symbolically *)

Module Cq.

(** [cq.Plane(origin=..., xDir=..., normal=...)]. *)
Record Plane : Type := mkPlane {
  origin : Vec3;
  xDir : Vec3;
  normal : Vec3
}.

(** The solids the program asks the kernel for. *)
Inductive Shape : Type :=
| Box (length width height : Q) (centered : bool * bool * bool)
| Extrusion (pl : Plane) (circles : list (Point2 * Q)) (distance : Q)
            (both : bool)
| Cut (s tool : Shape)
| Union (s other : Shape)
| Holes (s : Shape) (face : string) (centerOption : string)
        (points : list Point2) (diameter : Q).

(** A workplane under construction: its plane, the points pushed on its
    stack, and the circles drawn so far (centre, radius), all in the
    plane's local 2D frame. *)
Record Sketch : Type := mkSketch {
  sk_plane : Plane;
  sk_stack : list Point2;
  sk_wires : list (Point2 * Q)
}.

(** [cq.Workplane(plane)] : nothing on the stack. *)
Definition Workplane (pl : Plane) : Sketch :=
  {| sk_plane := pl; sk_stack := []; sk_wires := [] |}.

(** [.pushPoints(pts)]. *)
Definition pushPoints (pts : list Point2) (sk : Sketch) : Sketch :=
  {| sk_plane := sk_plane sk; sk_stack := pts; sk_wires := sk_wires sk |}.

(** Where the next 2D operation is placed: at every stack point, or at
    the workplane origin when the stack is empty. *)
Definition centers (sk : Sketch) : list Point2 :=
  match sk_stack sk with
  | [] => [(0, 0)]
  | pts => pts
  end.

(** [.circle(radius)]. *)
Definition circle (radius : Q) (sk : Sketch) : Sketch :=
  {| sk_plane := sk_plane sk;
     sk_stack := sk_stack sk;
     sk_wires := sk_wires sk ++ map (fun c => (c, radius)) (centers sk) |}.

(** [.extrude(distance, both=...)]. *)
Definition extrude (distance : Q) (both : bool) (sk : Sketch) : Shape :=
  Extrusion (sk_plane sk) (sk_wires sk) distance both.

(** [cq.Workplane("XY").box(l, w, h, centered=...)]. *)
Definition box (length width height : Q) (centered : bool * bool * bool)
  : Shape :=
  Box length width height centered.

(** [s.faces(face).workplane(centerOption=...).pushPoints(pts).hole(d)]. *)
Definition hole_on_face (face centerOption : string) (pts : list Point2)
           (diameter : Q) (s : Shape) : Shape :=
  Holes s face centerOption pts diameter.

End Cq.

Notation "x |> f" := (f x) (at level 71, left associativity, only parsing).

(* ------------------------------------------------------------------ *)
(** ** [build_l_bracket] *)

(** The local variables of [build_l_bracket] as they stand at its
    [return]; [result] is the returned value. *)
Module Locals.

Record Frame : Type := mkFrame {
  pitch_w : Q;
  pitch_h : Q;
  mount_center_z : Q;
  wall_height : Q;
  wall_width : Q;
  base_length : Q;
  t : Q;
  mount_plane : Cq.Plane;
  mount_hole_d : Q;
  center_hole_d : Q;
  half_pitch : Q;
  hole_points : list Point2;
  hole_cutter : Cq.Shape;
  shaft_cutter : Cq.Shape;
  wall : Cq.Shape;
  x1 : Q;
  x2 : Q;
  y_off : Q;
  base_hole_points : list Point2;
  base : Cq.Shape;
  result : Cq.Shape
}.

End Locals.

(** The body of [build_l_bracket], statement by statement. *)
Definition build_l_bracket_frame (motor : MotorFixedSpec)
           (params : BracketParams) : Locals.Frame :=
  let pitch_w := mount_hole_pitch motor in
  let pitch_h := mount_hole_pitch motor in

  let mount_center_z :=
    thickness params + body_diameter motor / 2.0 + body_clearance params in
  let wall_height :=
    mount_center_z
    + py_max (flange_size motor / 2.0 + top_margin params)
             (pitch_h / 2.0 + hole_edge_margin params) in
  let wall_width :=
    py_max (flange_size motor + 2.0 * body_clearance params)
           (pitch_w + 2.0 * hole_edge_margin params) in
  let base_length :=
    py_max (wall_width + base_length_extra params)
           (2.0 * base_hole_edge_offset params + 24.0) in

  let t := thickness params in

  let base :=
    Cq.box base_length wall_width t (false, true, false) in
  let wall :=
    Cq.box t wall_width wall_height (false, true, false) in

  let mount_plane :=
    Cq.mkPlane (t, 0.0, mount_center_z) (0, 1, 0) (1, 0, 0) in

  let mount_hole_d := mount_hole_diameter motor + mount_hole_clearance motor in
  let center_hole_d := pilot_diameter motor + pilot_clearance motor in
  let half_pitch := mount_hole_pitch motor / 2.0 in
  let hole_points :=
    [ (- half_pitch, - half_pitch);
      (- half_pitch, half_pitch);
      (half_pitch, - half_pitch);
      (half_pitch, half_pitch) ] in
  let hole_cutter :=
    Cq.Workplane mount_plane
    |> Cq.pushPoints hole_points
    |> Cq.circle (mount_hole_d / 2.0)
    |> Cq.extrude (t + 2.0) true in
  let shaft_cutter :=
    Cq.Workplane mount_plane
    |> Cq.circle (center_hole_d / 2.0)
    |> Cq.extrude (t + 2.0) true in
  let wall := Cq.Cut (Cq.Cut wall hole_cutter) shaft_cutter in

  let x1 := base_hole_edge_offset params in
  let x2 := base_length - base_hole_edge_offset params in
  let y_off := py_max (wall_width * 0.28) (base_hole_diameter params + 4.0) in
  let y_off :=
    py_min y_off (wall_width / 2.0 - hole_edge_margin params + 2.0) in

  let base_hole_points :=
    [ (x1 - base_length / 2.0, - y_off);
      (x1 - base_length / 2.0, y_off);
      (x2 - base_length / 2.0, - y_off);
      (x2 - base_length / 2.0, y_off) ] in
  let base :=
    base
    |> Cq.hole_on_face ">Z" "CenterOfBoundBox" base_hole_points
                       (base_hole_diameter params) in

  {| Locals.pitch_w := pitch_w;
     Locals.pitch_h := pitch_h;
     Locals.mount_center_z := mount_center_z;
     Locals.wall_height := wall_height;
     Locals.wall_width := wall_width;
     Locals.base_length := base_length;
     Locals.t := t;
     Locals.mount_plane := mount_plane;
     Locals.mount_hole_d := mount_hole_d;
     Locals.center_hole_d := center_hole_d;
     Locals.half_pitch := half_pitch;
     Locals.hole_points := hole_points;
     Locals.hole_cutter := hole_cutter;
     Locals.shaft_cutter := shaft_cutter;
     Locals.wall := wall;
     Locals.x1 := x1;
     Locals.x2 := x2;
     Locals.y_off := y_off;
     Locals.base_hole_points := base_hole_points;
     Locals.base := base;
     Locals.result := Cq.Union base wall |}.

Definition build_l_bracket (motor : MotorFixedSpec) (params : BracketParams)
  : Cq.Shape :=
  Locals.result (build_l_bracket_frame motor params).

(** The expressions of lines 49-52 and 96-97 as functions of the locals
    they read, for the statements that vary one of them alone. *)
Definition base_length_of
           (wall_width base_length_extra base_hole_edge_offset : Q) : Q :=
  py_max (wall_width + base_length_extra)
         (2.0 * base_hole_edge_offset + 24.0).

Definition y_off_of (wall_width base_hole_diameter hole_edge_margin : Q) : Q :=
  py_min (py_max (wall_width * 0.28) (base_hole_diameter + 4.0))
         (wall_width / 2.0 - hole_edge_margin + 2.0).

(** The centres at which a cutter removes material, read back from the
    solid the kernel was asked for. *)
Definition cutter_centers (s : Cq.Shape) : list Point2 :=
  match s with
  | Cq.Extrusion _ circles _ _ => map fst circles
  | _ => []
  end.

(** The plane a cutter was drawn on. *)
Definition cutter_plane (s : Cq.Shape) : option Cq.Plane :=
  match s with
  | Cq.Extrusion pl _ _ _ => Some pl
  | _ => None
  end.

Definition cutter_diameters (s : Cq.Shape) : list Q :=
  match s with
  | Cq.Extrusion _ circles _ _ => map (fun c => 2 * snd c) circles
  | _ => []
  end.


(* ------------------------------------------------------------------ *)
(** ** [main] *)

Module Cli.

(** A [pathlib.Path] of the POSIX flavour: whether it is absolute, and
    its components.  (Drives and drive-relative paths of the Windows
    flavour are not modelled.) *)
Record Path : Type := mkPath {
  is_absolute : bool;
  parts : list string
}.

(** [a / b] : an absolute right operand replaces the left one. *)
Definition joinpath (a b : Path) : Path :=
  if is_absolute b then b
  else {| is_absolute := is_absolute a; parts := parts a ++ parts b |}.

(** [p.parent]. *)
Definition parent (p : Path) : Path :=
  {| is_absolute := is_absolute p; parts := removelast (parts p) |}.

(** What the user wrote on the command line, after [argparse] has
    converted each value ([type=Path], [type=float]); [None] for an
    option that was not given. *)
Record CommandLine : Type := mkCommandLine {
  given_out : option Path;
  given_thickness : option Q
}.

(** The namespace [parser.parse_args()] returns. *)
Record Namespace : Type := mkNamespace {
  args_out : Path;
  args_thickness : Q
}.

Definition default_out_name : string := "M206-03-LBracket.step".

(** The two [add_argument] calls: each option falls back to its
    [default=]. *)
Definition parse_args (script_dir : Path) (cl : CommandLine) : Namespace :=
  {| args_out :=
       match given_out cl with
       | Some p => p
       | None => joinpath script_dir (mkPath false [default_out_name])
       end;
     args_thickness :=
       match given_thickness cl with
       | Some th => th
       | None => 5.0
       end |}.

(** The lines [main] prints, with the values they format. *)
Inductive Line : Type :=
| OkStepExported (out_path : Path)
| MountHolePitch (v : Q)
| MountHoleDia (v : Q)
| CenterClearanceDia (v : Q).

(** The calls by which [main] acts on the outside world, in program
    order.  Each may raise; nothing in [main] catches. *)
Inductive Effect : Type :=
| Mkdir (dir : Path) (parents exist_ok : bool)
| Export (solid : Cq.Shape) (fname : Path)
| Print (l : Line).

(** The local variables of [main] and the effects it requests. *)
Record Run : Type := mkRun {
  motor_spec : MotorFixedSpec;
  params : BracketParams;
  bracket : Cq.Shape;
  out_path : Path;
  effects : list Effect
}.

Definition main (script_dir : Path) (cl : CommandLine) : Run :=
  let args := parse_args script_dir cl in

  let motor_spec := MotorFixedSpec_default in
  let params := BracketParams_of_thickness (args_thickness args) in
  let bracket := build_l_bracket motor_spec params in

  let out_path :=
    if is_absolute (args_out args) then args_out args
    else joinpath script_dir (args_out args) in
  {| motor_spec := motor_spec;
     params := params;
     bracket := bracket;
     out_path := out_path;
     effects :=
       [ Mkdir (parent out_path) true true;
         Export bracket out_path;
         Print (OkStepExported out_path);
         Print (MountHolePitch (mount_hole_pitch motor_spec));
         Print (MountHoleDia
                  (mount_hole_diameter motor_spec
                   + mount_hole_clearance motor_spec));
         Print (CenterClearanceDia
                  (pilot_diameter motor_spec + pilot_clearance motor_spec)) ]
  |}.

End Cli.

(* ------------------------------------------------------------------ *)
(** ** The same sizing formulas over binary64 *)

Module Binary64.

Local Open Scope float_scope.

(** [b > a] is [a < b]; both are false when either side is a NaN. *)
Definition py_max (a b : float) : float := if a <? b then b else a.

Definition py_min (a b : float) : float := if b <? a then b else a.

Record MotorFixedSpec : Type := mkMotorFixedSpec {
  flange_size : float;
  body_diameter : float;
  mount_hole_pitch : float;
  mount_hole_diameter : float;
  mount_hole_clearance : float;
  pilot_diameter : float;
  pilot_clearance : float
}.

Definition MotorFixedSpec_default : MotorFixedSpec := {|
  flange_size := 60.0;
  body_diameter := 60.0;
  mount_hole_pitch := 49.5;
  mount_hole_diameter := 4.5;
  mount_hole_clearance := 0.5;
  pilot_diameter := 54.0;
  pilot_clearance := 2.0
|}.

Record BracketParams : Type := mkBracketParams {
  thickness : float;
  hole_edge_margin : float;
  body_clearance : float;
  top_margin : float;
  base_length_extra : float;
  base_hole_diameter : float;
  base_hole_edge_offset : float
}.

(** The literals [6.6] and [0.28] are not binary64 numbers; the
    interpreter reads each as the nearest one, written here exactly. *)
Definition lit_6_6 : float := 0x1.a666666666666p+2.

Definition lit_0_28 : float := 0x1.1eb851eb851ecp-2.

Definition BracketParams_of_thickness (th : float) : BracketParams := {|
  thickness := th;
  hole_edge_margin := 12.0;
  body_clearance := 8.0;
  top_margin := 10.0;
  base_length_extra := 20.0;
  base_hole_diameter := lit_6_6;
  base_hole_edge_offset := 18.0
|}.

Definition BracketParams_default : BracketParams :=
  BracketParams_of_thickness 5.0.

(** The numeric locals of [build_l_bracket]. *)
Record Frame : Type := mkFrame {
  mount_center_z : float;
  wall_height : float;
  wall_width : float;
  base_length : float;
  mount_hole_d : float;
  center_hole_d : float;
  half_pitch : float;
  hole_points : list (float * float);
  x1 : float;
  x2 : float;
  y_off : float;
  base_hole_points : list (float * float)
}.

Definition build_l_bracket_frame (motor : MotorFixedSpec)
           (params : BracketParams) : Frame :=
  let pitch_w := mount_hole_pitch motor in
  let pitch_h := mount_hole_pitch motor in
  let mount_center_z :=
    thickness params + body_diameter motor / 2.0 + body_clearance params in
  let wall_height :=
    mount_center_z
    + py_max (flange_size motor / 2.0 + top_margin params)
             (pitch_h / 2.0 + hole_edge_margin params) in
  let wall_width :=
    py_max (flange_size motor + 2.0 * body_clearance params)
           (pitch_w + 2.0 * hole_edge_margin params) in
  let base_length :=
    py_max (wall_width + base_length_extra params)
           (2.0 * base_hole_edge_offset params + 24.0) in
  let mount_hole_d :=
    mount_hole_diameter motor + mount_hole_clearance motor in
  let center_hole_d := pilot_diameter motor + pilot_clearance motor in
  let half_pitch := mount_hole_pitch motor / 2.0 in
  let hole_points :=
    [ (- half_pitch, - half_pitch);
      (- half_pitch, half_pitch);
      (half_pitch, - half_pitch);
      (half_pitch, half_pitch) ] in
  let x1 := base_hole_edge_offset params in
  let x2 := base_length - base_hole_edge_offset params in
  let y_off :=
    py_max (wall_width * lit_0_28) (base_hole_diameter params + 4.0) in
  let y_off :=
    py_min y_off (wall_width / 2.0 - hole_edge_margin params + 2.0) in
  let base_hole_points :=
    [ (x1 - base_length / 2.0, - y_off);
      (x1 - base_length / 2.0, y_off);
      (x2 - base_length / 2.0, - y_off);
      (x2 - base_length / 2.0, y_off) ] in
  {| mount_center_z := mount_center_z;
     wall_height := wall_height;
     wall_width := wall_width;
     base_length := base_length;
     mount_hole_d := mount_hole_d;
     center_hole_d := center_hole_d;
     half_pitch := half_pitch;
     hole_points := hole_points;
     x1 := x1;
     x2 := x2;
     y_off := y_off;
     base_hole_points := base_hole_points |}.

End Binary64.

(* ------------------------------------------------------------------ *)
(** ** Vocabulary of the specification *)

(** Reflections of the mount plane's local frame about its origin. *)
Definition reflect_u (p : Point2) : Point2 := (- fst p, snd p).
Definition reflect_v (p : Point2) : Point2 := (fst p, - snd p).

(** [pts] is carried into itself by [f]. *)
Definition closed_under (f : Point2 -> Point2) (pts : list Point2) : Prop :=
  incl (map f pts) pts.

(** "All lengths are strictly positive." *)
Definition positive_motor (motor : MotorFixedSpec) : Prop :=
  0 < flange_size motor
  /\ 0 < body_diameter motor
  /\ 0 < mount_hole_pitch motor
  /\ 0 < mount_hole_diameter motor
  /\ 0 < mount_hole_clearance motor
  /\ 0 < pilot_diameter motor
  /\ 0 < pilot_clearance motor.

Definition positive_params (params : BracketParams) : Prop :=
  0 < thickness params
  /\ 0 < hole_edge_margin params
  /\ 0 < body_clearance params
  /\ 0 < top_margin params
  /\ 0 < base_length_extra params
  /\ 0 < base_hole_diameter params
  /\ 0 < base_hole_edge_offset params.

(** The specification's [clamp(v, upper_bound = ub)], in the words of the
    specification: the smaller of [v] and [ub]. *)
Definition clamp_upper (v ub : Q) : Q := Qmin v ub.

(** Bracket parameters with the base holes 40 mm from each end, the other
    fields at their defaults. *)
Definition wide_offset_params : BracketParams := {|
  thickness := 5.0;
  hole_edge_margin := 12.0;
  body_clearance := 8.0;
  top_margin := 10.0;
  base_length_extra := 20.0;
  base_hole_diameter := 6.6;
  base_hole_edge_offset := 40.0
|}.

(** The same parameters with another thickness, as when only
    [--thickness] differs between two runs. *)
Definition with_thickness (params : BracketParams) (th : Q)
  : BracketParams := {|
  thickness := th;
  hole_edge_margin := hole_edge_margin params;
  body_clearance := body_clearance params;
  top_margin := top_margin params;
  base_length_extra := base_length_extra params;
  base_hole_diameter := base_hole_diameter params;
  base_hole_edge_offset := base_hole_edge_offset params
|}.


(** Two records hold the same numbers, field by field.  A rational has
    many representations (1/2, 2/4); [==] compares the numbers. *)
Definition motor_eq (m1 m2 : MotorFixedSpec) : Prop :=
  flange_size m1 == flange_size m2
  /\ body_diameter m1 == body_diameter m2
  /\ mount_hole_pitch m1 == mount_hole_pitch m2
  /\ mount_hole_diameter m1 == mount_hole_diameter m2
  /\ mount_hole_clearance m1 == mount_hole_clearance m2
  /\ pilot_diameter m1 == pilot_diameter m2
  /\ pilot_clearance m1 == pilot_clearance m2.

Definition params_eq (p1 p2 : BracketParams) : Prop :=
  thickness p1 == thickness p2
  /\ hole_edge_margin p1 == hole_edge_margin p2
  /\ body_clearance p1 == body_clearance p2
  /\ top_margin p1 == top_margin p2
  /\ base_length_extra p1 == base_length_extra p2
  /\ base_hole_diameter p1 == base_hole_diameter p2
  /\ base_hole_edge_offset p1 == base_hole_edge_offset p2.

Definition point_eq (p q : Point2) : Prop :=
  fst p == fst q /\ snd p == snd q.

(** The outputs of the Dimension Resolver agree: every derived scalar and
    both hole point lists, point by point. *)
Definition outputs_eq (f1 f2 : Locals.Frame) : Prop :=
  Locals.mount_center_z f1 == Locals.mount_center_z f2
  /\ Locals.wall_height f1 == Locals.wall_height f2
  /\ Locals.wall_width f1 == Locals.wall_width f2
  /\ Locals.base_length f1 == Locals.base_length f2
  /\ Locals.mount_hole_d f1 == Locals.mount_hole_d f2
  /\ Locals.center_hole_d f1 == Locals.center_hole_d f2
  /\ Locals.x1 f1 == Locals.x1 f2
  /\ Locals.x2 f1 == Locals.x2 f2
  /\ Locals.y_off f1 == Locals.y_off f2
  /\ Forall2 point_eq (Locals.hole_points f1) (Locals.hole_points f2)
  /\ Forall2 point_eq (Locals.base_hole_points f1)
                      (Locals.base_hole_points f2).


(* ------------------------------------------------------------------ *)
(** ** Where the kernel puts things *)

(** How a plane's local 2D frame sits in space, and which cutters a
    solid carries. *)
Module Geom.

Definition cross (a b : Vec3) : Vec3 :=
  let '(a1, a2, a3) := a in
  let '(b1, b2, b3) := b in
  (a2 * b3 - a3 * b2, a3 * b1 - a1 * b3, a1 * b2 - a2 * b1).

(** The second in-plane axis of a plane: normal x xDir. *)
Definition yDir (pl : Cq.Plane) : Vec3 :=
  cross (Cq.normal pl) (Cq.xDir pl).

(** [plane.toWorldCoords((u, v))] for a plane given by unit vectors:
    origin + u * xDir + v * yDir. *)
Definition toWorldCoords (pl : Cq.Plane) (p : Point2) : Vec3 :=
  let '(o1, o2, o3) := Cq.origin pl in
  let '(x1, x2, x3) := Cq.xDir pl in
  let '(y1, y2, y3) := yDir pl in
  (o1 + fst p * x1 + snd p * y1,
   o2 + fst p * x2 + snd p * y2,
   o3 + fst p * x3 + snd p * y3).

(** The cutters applied anywhere inside a solid, in program order. *)
Fixpoint tools (s : Cq.Shape) : list Cq.Shape :=
  match s with
  | Cq.Cut s' tool => tools s' ++ [tool]
  | Cq.Union a b => tools a ++ tools b
  | Cq.Holes s' _ _ _ _ => tools s'
  | Cq.Box _ _ _ _ => []
  | Cq.Extrusion _ _ _ _ => []
  end.

End Geom.

(** Two points of space hold the same numbers. *)
Definition vec_eq (a b : Vec3) : Prop :=
  fst (fst a) == fst (fst b) /\ snd (fst a) == snd (fst b) /\ snd a == snd b.


(* ================================================================== *)
(** * Properties *)

(** ** [py_max] and [py_min] *)

Section PyMinMax.

Variables a b : Q.

Lemma py_max_cases :
  (a < b /\ py_max a b = b) \/ (b <= a /\ py_max a b = a).
Proof.
  unfold py_max.
  destruct (Qcompare_spec b a) as [E | L | G].
  - right. split; [rewrite E; apply Qle_refl | reflexivity].
  - right. split; [apply Qlt_le_weak, L | reflexivity].
  - left. split; [exact G | reflexivity].
Qed.

Lemma py_min_cases :
  (b < a /\ py_min a b = b) \/ (a <= b /\ py_min a b = a).
Proof.
  unfold py_min.
  destruct (Qcompare_spec b a) as [E | L | G].
  - right. split; [rewrite E; apply Qle_refl | reflexivity].
  - left. split; [exact L | reflexivity].
  - right. split; [apply Qlt_le_weak, G | reflexivity].
Qed.

Lemma py_max_l : a <= py_max a b.
Proof. destruct py_max_cases as [[H ->] | [H ->]]; lra. Qed.

Lemma py_max_r : b <= py_max a b.
Proof. destruct py_max_cases as [[H ->] | [H ->]]; lra. Qed.

Lemma py_min_l : py_min a b <= a.
Proof. destruct py_min_cases as [[H ->] | [H ->]]; lra. Qed.

Lemma py_min_r : py_min a b <= b.
Proof. destruct py_min_cases as [[H ->] | [H ->]]; lra. Qed.

Lemma py_max_lub (c : Q) : a <= c -> b <= c -> py_max a b <= c.
Proof.
  intros Ha Hb. destruct py_max_cases as [[_ ->] | [_ ->]]; assumption.
Qed.

Lemma py_min_glb (c : Q) : c <= a -> c <= b -> c <= py_min a b.
Proof.
  intros Ha Hb. destruct py_min_cases as [[_ ->] | [_ ->]]; assumption.
Qed.

(** The program's [max] and [min] are the library's, argument for
    argument (not only up to [==]). *)
Lemma py_max_Qmax : py_max a b = Qmax a b.
Proof.
  unfold py_max, Qmax, GenericMinMax.gmax.
  rewrite <- (Qcompare_antisym a b). destruct (a ?= b); reflexivity.
Qed.

Lemma py_min_Qmin : py_min a b = Qmin a b.
Proof.
  unfold py_min, Qmin, GenericMinMax.gmin.
  rewrite <- (Qcompare_antisym a b). destruct (a ?= b); reflexivity.
Qed.

End PyMinMax.

Lemma py_max_mono (a b a' b' : Q) :
  a <= a' -> b <= b' -> py_max a b <= py_max a' b'.
Proof.
  intros Ha Hb. apply py_max_lub.
  - apply Qle_trans with a'; [assumption | apply py_max_l].
  - apply Qle_trans with b'; [assumption | apply py_max_r].
Qed.

Lemma py_min_mono (a b a' b' : Q) :
  a <= a' -> b <= b' -> py_min a b <= py_min a' b'.
Proof.
  intros Ha Hb. apply py_min_glb.
  - apply Qle_trans with a; [apply py_min_l | assumption].
  - apply Qle_trans with b; [apply py_min_r | assumption].
Qed.

(** Linear arithmetic over [Q] does not look through a division: the
    only divisor of the program, [2.0], is turned into a factor first. *)
Ltac q_arith :=
  unfold Qdiv in *; change (/ 2.0) with (10 # 20) in *; lra.

#[export] Instance py_max_compat : Proper (Qeq ==> Qeq ==> Qeq) py_max.
Proof.
  intros a a' Ha b b' Hb. apply Qle_antisym; apply py_max_mono; lra.
Qed.

#[export] Instance py_min_compat : Proper (Qeq ==> Qeq ==> Qeq) py_min.
Proof.
  intros a a' Ha b b' Hb. apply Qle_antisym; apply py_min_mono; lra.
Qed.

(* ------------------------------------------------------------------ *)
(** ** The documented scenarios *)

(** The sizing formulas, with the local names replaced by what they
    stand for. *)
Lemma frame_scalars (motor : MotorFixedSpec) (params : BracketParams) :
  let fr := build_l_bracket_frame motor params in
  Locals.mount_center_z fr
  = thickness params + body_diameter motor / 2.0 + body_clearance params
  /\ Locals.wall_height fr
     = Locals.mount_center_z fr
       + py_max (flange_size motor / 2.0 + top_margin params)
                (mount_hole_pitch motor / 2.0 + hole_edge_margin params)
  /\ Locals.wall_width fr
     = py_max (flange_size motor + 2.0 * body_clearance params)
              (mount_hole_pitch motor + 2.0 * hole_edge_margin params)
  /\ Locals.base_length fr
     = base_length_of (Locals.wall_width fr) (base_length_extra params)
                      (base_hole_edge_offset params)
  /\ Locals.y_off fr
     = y_off_of (Locals.wall_width fr) (base_hole_diameter params)
                (hole_edge_margin params)
  /\ Locals.x1 fr = base_hole_edge_offset params
  /\ Locals.x2 fr = Locals.base_length fr - base_hole_edge_offset params.
Proof. repeat split. Qed.

(** C1.  With [MotorFixedSpec()] and [BracketParams()] (thickness 5.0) the
    program computes wall_height = 83, wall_width = 76, a mount hole
    diameter of 5 and a pilot diameter of 56; the binary64 evaluation
    gives exactly these four numbers as well. *)
Theorem C1_default_dimensions :
  (Locals.wall_height
     (build_l_bracket_frame MotorFixedSpec_default BracketParams_default)
   == 83.0
   /\ Locals.wall_width
        (build_l_bracket_frame MotorFixedSpec_default BracketParams_default)
      == 76.0
   /\ Locals.mount_hole_d
        (build_l_bracket_frame MotorFixedSpec_default BracketParams_default)
      == 5.0
   /\ Locals.center_hole_d
        (build_l_bracket_frame MotorFixedSpec_default BracketParams_default)
      == 56.0)
  /\ (Binary64.wall_height
        (Binary64.build_l_bracket_frame Binary64.MotorFixedSpec_default
                                        Binary64.BracketParams_default)
      = 83.0%float
      /\ Binary64.wall_width
           (Binary64.build_l_bracket_frame Binary64.MotorFixedSpec_default
                                           Binary64.BracketParams_default)
         = 76.0%float
      /\ Binary64.mount_hole_d
           (Binary64.build_l_bracket_frame Binary64.MotorFixedSpec_default
                                           Binary64.BracketParams_default)
         = 5.0%float
      /\ Binary64.center_hole_d
           (Binary64.build_l_bracket_frame Binary64.MotorFixedSpec_default
                                           Binary64.BracketParams_default)
         = 56.0%float).
Proof.
  split.
  - repeat split; vm_compute; reflexivity.
  - repeat split; vm_compute; reflexivity.
Qed.

(* ------------------------------------------------------------------ *)
(** ** The wall contains the mount centre and the hole pattern *)

(** The wall is never narrower than the hole pattern plus its margins,
    whatever the inputs. *)
Lemma wall_width_ge_pattern (motor : MotorFixedSpec) (params : BracketParams) :
  mount_hole_pitch motor + 2.0 * hole_edge_margin params
  <= Locals.wall_width (build_l_bracket_frame motor params).
Proof. cbn. apply py_max_r. Qed.

Lemma wall_width_ge_flange (motor : MotorFixedSpec) (params : BracketParams) :
  flange_size motor + 2.0 * body_clearance params
  <= Locals.wall_width (build_l_bracket_frame motor params).
Proof. cbn. apply py_max_l. Qed.

(** The wall reaches the mount centre as soon as one of the two overhangs
    is not negative. *)
Lemma wall_height_ge_center (motor : MotorFixedSpec) (params : BracketParams) :
  0 <= flange_size motor / 2.0 + top_margin params
  \/ 0 <= mount_hole_pitch motor / 2.0 + hole_edge_margin params ->
  Locals.mount_center_z (build_l_bracket_frame motor params)
  <= Locals.wall_height (build_l_bracket_frame motor params).
Proof.
  intros H. cbn.
  set (m := py_max _ _).
  assert (Hm : 0 <= m).
  { destruct H as [H | H].
    - eapply Qle_trans; [exact H | apply py_max_l].
    - eapply Qle_trans; [exact H | apply py_max_r]. }
  lra.
Qed.

(** C2.  For every strictly positive thickness, with the default motor
    and the other bracket parameters at their defaults:
    mount_center_z = thickness + body_diameter/2 + body_clearance,
    wall_height >= mount_center_z, and
    wall_width >= mount_hole_pitch + 2 * hole_edge_margin. *)
Theorem C2_wall_bounds (th : Q) :
  0 < th ->
  Locals.mount_center_z
    (build_l_bracket_frame MotorFixedSpec_default
                           (BracketParams_of_thickness th))
  = th + body_diameter MotorFixedSpec_default / 2.0
    + body_clearance BracketParams_default
  /\ Locals.mount_center_z
       (build_l_bracket_frame MotorFixedSpec_default
                              (BracketParams_of_thickness th))
     <= Locals.wall_height
          (build_l_bracket_frame MotorFixedSpec_default
                                 (BracketParams_of_thickness th))
  /\ mount_hole_pitch MotorFixedSpec_default
     + 2 * hole_edge_margin BracketParams_default
     <= Locals.wall_width
          (build_l_bracket_frame MotorFixedSpec_default
                                 (BracketParams_of_thickness th)).
Proof.
  intros _. split; [reflexivity | split].
  - apply wall_height_ge_center. left. vm_compute. discriminate.
  - apply (wall_width_ge_pattern MotorFixedSpec_default
                                 (BracketParams_of_thickness th)).
Qed.

Lemma C2_wall_bounds_witness :
  0 < 3.0
  /\ Locals.mount_center_z
       (build_l_bracket_frame MotorFixedSpec_default
                              (BracketParams_of_thickness 3.0))
     <= Locals.wall_height
          (build_l_bracket_frame MotorFixedSpec_default
                                 (BracketParams_of_thickness 3.0)).
Proof.
  assert (H : 0 < 3.0) by reflexivity.
  split; [exact H | exact (proj1 (proj2 (C2_wall_bounds 3.0 H)))].
Defined.

(* ------------------------------------------------------------------ *)
(** ** The mount holes and the pilot hole *)

Lemma Qopp_opp_eq (q : Q) : - - q = q.
Proof. destruct q as [n d]. unfold Qopp. cbn. now rewrite Z.opp_involutive. Qed.

Lemma Qopp_inj_zero (q : Q) : - q == q -> q == 0.
Proof. intros H. lra. Qed.

(** The four mount holes are four different points unless the pitch is
    zero, in which case they all fall on the origin. *)
Lemma hole_points_distinct (motor : MotorFixedSpec) (params : BracketParams) :
  ~ mount_hole_pitch motor == 0 ->
  NoDup (Locals.hole_points (build_l_bracket_frame motor params)).
Proof.
  intros Hp. cbn.
  set (h := mount_hole_pitch motor / 2.0).
  assert (Hh : ~ - h == h).
  { intros E. apply Hp. apply Qopp_inj_zero in E. unfold h in E.
    clear - E. q_arith. }
  assert (Hn : - h <> h) by (intros E; apply Hh; rewrite E; reflexivity).
  assert (Hn' : h <> - h) by (intros E; apply Hn; symmetry; exact E).
  repeat constructor; cbn; intuition congruence.
Qed.

Lemma hole_points_zero_pitch (motor : MotorFixedSpec) (params : BracketParams) :
  mount_hole_pitch motor == 0 ->
  Forall (fun p => fst p == 0 /\ snd p == 0)
         (Locals.hole_points (build_l_bracket_frame motor params)).
Proof.
  intros Hp. cbn. repeat constructor; cbn; q_arith.
Qed.

(** C3.  For every motor and every bracket parameters: the list handed to
    [pushPoints] has exactly four entries, (-h,-h), (-h,h), (h,-h), (h,h)
    with h = mount_hole_pitch/2; it is carried into itself by either
    reflection about the mount-plane origin; the hole cutter is cut at
    exactly these points; and the shaft cutter, drawn on the same plane,
    is cut at the single point (0,0), the origin of that plane. *)
Theorem C3_mount_holes (motor : MotorFixedSpec) (params : BracketParams) :
  Locals.hole_points (build_l_bracket_frame motor params)
  = [ (- (mount_hole_pitch motor / 2.0), - (mount_hole_pitch motor / 2.0));
      (- (mount_hole_pitch motor / 2.0), mount_hole_pitch motor / 2.0);
      (mount_hole_pitch motor / 2.0, - (mount_hole_pitch motor / 2.0));
      (mount_hole_pitch motor / 2.0, mount_hole_pitch motor / 2.0) ]
  /\ List.length (Locals.hole_points (build_l_bracket_frame motor params))
     = 4%nat
  /\ closed_under reflect_u
                  (Locals.hole_points (build_l_bracket_frame motor params))
  /\ closed_under reflect_v
                  (Locals.hole_points (build_l_bracket_frame motor params))
  /\ cutter_centers (Locals.hole_cutter (build_l_bracket_frame motor params))
     = Locals.hole_points (build_l_bracket_frame motor params)
  /\ cutter_centers (Locals.shaft_cutter (build_l_bracket_frame motor params))
     = [ (0, 0) ]
  /\ cutter_plane (Locals.hole_cutter (build_l_bracket_frame motor params))
     = Some (Locals.mount_plane (build_l_bracket_frame motor params))
  /\ cutter_plane (Locals.shaft_cutter (build_l_bracket_frame motor params))
     = Some (Locals.mount_plane (build_l_bracket_frame motor params)).
Proof.
  repeat split.
  - unfold closed_under, reflect_u. cbn.
    set (h := mount_hole_pitch motor / 2.0).
    intros p Hp. cbn in Hp. rewrite !Qopp_opp_eq in Hp. cbn. tauto.
  - unfold closed_under, reflect_v. cbn.
    set (h := mount_hole_pitch motor / 2.0).
    intros p Hp. cbn in Hp. rewrite !Qopp_opp_eq in Hp. cbn. tauto.
Qed.

(* ------------------------------------------------------------------ *)
(** ** The base holes *)

(** The base is never shorter than either of its two lower bounds. *)
Lemma base_length_ge_wall (motor : MotorFixedSpec) (params : BracketParams) :
  Locals.wall_width (build_l_bracket_frame motor params)
  + base_length_extra params
  <= Locals.base_length (build_l_bracket_frame motor params).
Proof. cbn. apply py_max_l. Qed.

Lemma base_length_ge_span (motor : MotorFixedSpec) (params : BracketParams) :
  2.0 * base_hole_edge_offset params + 24.0
  <= Locals.base_length (build_l_bracket_frame motor params).
Proof. cbn. apply py_max_r. Qed.

(** The layout of the base holes; no assumption on the inputs is needed. *)
Lemma base_holes_layout (motor : MotorFixedSpec) (params : BracketParams) :
  Locals.x1 (build_l_bracket_frame motor params)
  - Locals.base_length (build_l_bracket_frame motor params) / 2.0
  == - (Locals.x2 (build_l_bracket_frame motor params)
        - Locals.base_length (build_l_bracket_frame motor params) / 2.0)
  /\ Locals.x2 (build_l_bracket_frame motor params)
     - Locals.x1 (build_l_bracket_frame motor params)
     == Locals.base_length (build_l_bracket_frame motor params)
        - 2 * base_hole_edge_offset params
  /\ 24 <= Locals.x2 (build_l_bracket_frame motor params)
           - Locals.x1 (build_l_bracket_frame motor params).
Proof.
  pose proof (base_length_ge_span motor params) as Hspan.
  destruct (frame_scalars motor params) as (_ & _ & _ & _ & _ & Hx1 & Hx2).
  rewrite Hx1, Hx2.
  set (L := Locals.base_length (build_l_bracket_frame motor params)) in *.
  clearbody L. clear Hx1 Hx2.
  repeat split; q_arith.
Qed.

(** *** The same layout as the interpreter computes it

    In binary64 the comparisons of [max] are exact, so the two lower
    bounds of base_length hold for the rounded numbers as well; the
    subtractions that place the holes round. *)
Section Binary64Order.

Local Open Scope float_scope.






End Binary64Order.


(** C5.  base_length never decreases when wall_width grows or when
    base_hole_edge_offset grows, base_length_extra being the same: of two
    runs, the one with the larger (or equal) wall_width and the larger (or
    equal) base_hole_edge_offset has the larger (or equal) base_length.
    Either argument may be kept fixed. *)
Theorem C5_base_length_monotone
        (motor motor' : MotorFixedSpec) (params params' : BracketParams) :
  Locals.wall_width (build_l_bracket_frame motor params)
  <= Locals.wall_width (build_l_bracket_frame motor' params') ->
  base_length_extra params == base_length_extra params' ->
  base_hole_edge_offset params <= base_hole_edge_offset params' ->
  Locals.base_length (build_l_bracket_frame motor params)
  <= Locals.base_length (build_l_bracket_frame motor' params').
Proof.
  intros Hw He Ho.
  destruct (frame_scalars motor params) as (_ & _ & _ & -> & _).
  destruct (frame_scalars motor' params') as (_ & _ & _ & -> & _).
  unfold base_length_of. apply py_max_mono; lra.
Qed.

Lemma C5_base_length_monotone_witness :
  Locals.base_length
    (build_l_bracket_frame MotorFixedSpec_default BracketParams_default)
  <= Locals.base_length
       (build_l_bracket_frame MotorFixedSpec_default wide_offset_params).
Proof.
  apply (C5_base_length_monotone MotorFixedSpec_default MotorFixedSpec_default
           BracketParams_default wide_offset_params).
  - vm_compute. discriminate.
  - reflexivity.
  - vm_compute. discriminate.
Defined.

(** The same statement on the expression alone. *)
Lemma base_length_of_monotone (w w' e o o' : Q) :
  w <= w' -> o <= o' -> base_length_of w e o <= base_length_of w' e o'.
Proof. intros Hw Ho. unfold base_length_of. apply py_max_mono; lra. Qed.

(** The default base is 96 long; moving the holes 40 from each end makes
    the second bound win and the base 104 long. *)
Example base_length_default :
  Locals.base_length
    (build_l_bracket_frame MotorFixedSpec_default BracketParams_default)
  == 96.
Proof. vm_compute. reflexivity. Qed.

Example base_length_wide_offset :
  Locals.base_length
    (build_l_bracket_frame MotorFixedSpec_default wide_offset_params)
  == 104.
Proof. vm_compute. reflexivity. Qed.

(* ------------------------------------------------------------------ *)
(** ** The base-hole y-offset *)

Lemma y_off_le_bound (motor : MotorFixedSpec) (params : BracketParams) :
  Locals.y_off (build_l_bracket_frame motor params)
  <= Locals.wall_width (build_l_bracket_frame motor params) / 2.0
     - hole_edge_margin params + 2.0.
Proof.
  destruct (frame_scalars motor params) as (_ & _ & _ & _ & -> & _).
  unfold y_off_of. apply py_min_r.
Qed.

(** The offset is not negative as soon as the hole pattern and the base
    hole are not absurdly negative. *)
Lemma y_off_nonneg (motor : MotorFixedSpec) (params : BracketParams) :
  0 <= mount_hole_pitch motor + 4 ->
  0 <= base_hole_diameter params + 4 ->
  0 <= Locals.y_off (build_l_bracket_frame motor params).
Proof.
  intros Hp Hd.
  pose proof (wall_width_ge_pattern motor params) as Hw.
  destruct (frame_scalars motor params) as (_ & _ & _ & _ & -> & _).
  set (w := Locals.wall_width (build_l_bracket_frame motor params)) in *.
  clearbody w. unfold y_off_of. apply py_min_glb.
  - eapply Qle_trans; [ | apply py_max_r]. lra.
  - q_arith.
Qed.

(** C6.  For every input whose fields are all strictly positive, y_off is
    the clamp of max(wall_width * 0.28, base_hole_diameter + 4) to the
    upper bound wall_width/2 - hole_edge_margin + 2, and it lies between
    0 and that bound. *)
Theorem C6_y_off_clamped (motor : MotorFixedSpec) (params : BracketParams) :
  positive_motor motor ->
  positive_params params ->
  Locals.y_off (build_l_bracket_frame motor params)
  = clamp_upper
      (Qmax (Locals.wall_width (build_l_bracket_frame motor params) * 0.28)
            (base_hole_diameter params + 4.0))
      (Locals.wall_width (build_l_bracket_frame motor params) / 2.0
       - hole_edge_margin params + 2.0)
  /\ 0 <= Locals.y_off (build_l_bracket_frame motor params)
  /\ Locals.y_off (build_l_bracket_frame motor params)
     <= Locals.wall_width (build_l_bracket_frame motor params) / 2.0
        - hole_edge_margin params + 2.0.
Proof.
  intros Hm Hp.
  destruct Hm as (_ & _ & Hpitch & _).
  destruct Hp as (_ & _ & _ & _ & _ & Hd & _).
  split; [ | split].
  - destruct (frame_scalars motor params) as (_ & _ & _ & _ & -> & _).
    unfold y_off_of, clamp_upper.
    rewrite py_min_Qmin, py_max_Qmax. reflexivity.
  - apply y_off_nonneg; lra.
  - apply y_off_le_bound.
Qed.

Lemma C6_y_off_clamped_witness :
  positive_motor MotorFixedSpec_default
  /\ positive_params BracketParams_default
  /\ 0 <= Locals.y_off
            (build_l_bracket_frame MotorFixedSpec_default
                                   BracketParams_default).
Proof.
  assert (Hm : positive_motor MotorFixedSpec_default)
    by (repeat split).
  assert (Hp : positive_params BracketParams_default)
    by (repeat split).
  split; [exact Hm | split; [exact Hp | ]].
  apply (C6_y_off_clamped MotorFixedSpec_default BracketParams_default Hm Hp).
Defined.

Example y_off_default :
  Locals.y_off
    (build_l_bracket_frame MotorFixedSpec_default BracketParams_default)
  == 21.28.
Proof. vm_compute. reflexivity. Qed.

(** With positive inputs the offset is strictly positive, so the four
    base holes are four different points. *)
Lemma y_off_pos (motor : MotorFixedSpec) (params : BracketParams) :
  0 < mount_hole_pitch motor ->
  0 < base_hole_diameter params ->
  0 < Locals.y_off (build_l_bracket_frame motor params).
Proof.
  intros Hp Hd.
  pose proof (wall_width_ge_pattern motor params) as Hw.
  destruct (frame_scalars motor params) as (_ & _ & _ & _ & -> & _).
  set (w := Locals.wall_width (build_l_bracket_frame motor params)) in *.
  clearbody w. unfold y_off_of.
  destruct (py_min_cases
              (py_max (w * 0.28) (base_hole_diameter params + 4.0))
              (w / 2.0 - hole_edge_margin params + 2.0)) as [[_ ->] | [_ ->]].
  - q_arith.
  - eapply Qlt_le_trans; [ | apply py_max_r]. lra.
Qed.

Lemma base_hole_points_distinct
      (motor : MotorFixedSpec) (params : BracketParams) :
  0 < mount_hole_pitch motor ->
  0 < base_hole_diameter params ->
  NoDup (Locals.base_hole_points (build_l_bracket_frame motor params)).
Proof.
  intros Hp Hd.
  pose proof (y_off_pos motor params Hp Hd) as Hy.
  destruct (base_holes_layout motor params) as (_ & _ & Hx).
  change (Locals.base_hole_points (build_l_bracket_frame motor params))
    with [ (Locals.x1 (build_l_bracket_frame motor params)
            - Locals.base_length (build_l_bracket_frame motor params) / 2.0,
            - Locals.y_off (build_l_bracket_frame motor params));
           (Locals.x1 (build_l_bracket_frame motor params)
            - Locals.base_length (build_l_bracket_frame motor params) / 2.0,
            Locals.y_off (build_l_bracket_frame motor params));
           (Locals.x2 (build_l_bracket_frame motor params)
            - Locals.base_length (build_l_bracket_frame motor params) / 2.0,
            - Locals.y_off (build_l_bracket_frame motor params));
           (Locals.x2 (build_l_bracket_frame motor params)
            - Locals.base_length (build_l_bracket_frame motor params) / 2.0,
            Locals.y_off (build_l_bracket_frame motor params)) ].
  set (y := Locals.y_off (build_l_bracket_frame motor params)) in *.
  set (a := Locals.x1 (build_l_bracket_frame motor params)) in *.
  set (b := Locals.x2 (build_l_bracket_frame motor params)) in *.
  set (L := Locals.base_length (build_l_bracket_frame motor params)) in *.
  clearbody y a b L.
  assert (Hy1 : - y <> y).
  { intros E. assert (E' : - y == y) by (rewrite E; reflexivity). lra. }
  assert (Hab : a - L / 2.0 <> b - L / 2.0).
  { intros E.
    assert (E' : a - L / 2.0 == b - L / 2.0) by (rewrite E; reflexivity).
    clear E. q_arith. }
  repeat constructor; cbn; intuition congruence.
Qed.

(* ------------------------------------------------------------------ *)
(** ** Independence of the representation of numbers *)

(** Rewrites with every equation between numbers at hand. *)
Ltac rewrite_fields :=
  repeat match goal with
         | H : _ == _ |- _ => try rewrite H; clear H
         end.

(** The derived numbers do not depend on how the input numbers are
    written: inputs holding the same rationals, as whatever fractions,
    give the same derived scalars and the same two hole point lists. *)
Lemma frame_respects_numbers
      (m1 m2 : MotorFixedSpec) (p1 p2 : BracketParams) :
  motor_eq m1 m2 ->
  params_eq p1 p2 ->
  outputs_eq (build_l_bracket_frame m1 p1) (build_l_bracket_frame m2 p2).
Proof.
  intros (Hm1 & Hm2 & Hm3 & Hm4 & Hm5 & Hm6 & Hm7)
         (Hp1 & Hp2 & Hp3 & Hp4 & Hp5 & Hp6 & Hp7).
  unfold outputs_eq, point_eq. cbn.
  repeat split; repeat constructor; cbn; rewrite_fields; reflexivity.
Qed.

(* ------------------------------------------------------------------ *)
(** ** What the thickness does not influence *)


(** The thickness does reach the solid: the two plates are as thick as
    asked, and the wall as high as the thickness makes it. *)
Example thickness_changes_wall_height :
  Locals.wall_height
    (build_l_bracket_frame MotorFixedSpec_default
                           (BracketParams_of_thickness 3.0))
  == 81.
Proof. vm_compute. reflexivity. Qed.

(* ------------------------------------------------------------------ *)
(** ** The command line *)

(** [BracketParams(thickness=5.0)] is [BracketParams()]. *)
Lemma BracketParams_of_default_thickness :
  BracketParams_of_thickness 5.0 = BracketParams_default.
Proof. reflexivity. Qed.

(** C10.  The [default=] of [--thickness] is the dataclass default of
    [thickness].  So when [--thickness] is not given, whatever [--out]
    is, [main] builds the record [BracketParams()] and its bracket is
    [build_l_bracket(MotorFixedSpec(), BracketParams())]. *)
Theorem C10_cli_default_thickness
        (script_dir : Cli.Path) (given_out : option Cli.Path) :
  Cli.args_thickness
    (Cli.parse_args script_dir (Cli.mkCommandLine given_out None))
  = thickness BracketParams_default
  /\ Cli.params (Cli.main script_dir (Cli.mkCommandLine given_out None))
     = BracketParams_default
  /\ Cli.motor_spec (Cli.main script_dir (Cli.mkCommandLine given_out None))
     = MotorFixedSpec_default
  /\ Cli.bracket (Cli.main script_dir (Cli.mkCommandLine given_out None))
     = build_l_bracket MotorFixedSpec_default BracketParams_default.
Proof. repeat split. Qed.

(** With [--thickness] given, its value is the thickness of the record
    and the other six fields are the defaults. *)
Lemma cli_given_thickness
      (script_dir : Cli.Path) (given_out : option Cli.Path) (th : Q) :
  Cli.params (Cli.main script_dir (Cli.mkCommandLine given_out (Some th)))
  = with_thickness BracketParams_default th.
Proof. reflexivity. Qed.

(** [main] asks for one export, of the bracket it built, to [out_path],
    and only after it asked for the parent directory; the summary is
    printed last.  Whether a failing export leaves a file behind is the
    exporter's business: [main] neither catches nor cleans up. *)
Lemma main_effects (script_dir : Cli.Path) (cl : Cli.CommandLine) :
  exists summary,
    Cli.effects (Cli.main script_dir cl)
    = Cli.Mkdir (Cli.parent (Cli.out_path (Cli.main script_dir cl))) true true
      :: Cli.Export (Cli.bracket (Cli.main script_dir cl))
                    (Cli.out_path (Cli.main script_dir cl))
      :: map Cli.Print summary.
Proof. eexists [_; _; _; _]. reflexivity. Qed.

(** The diameters [main] reports are the ones [build_l_bracket] drills
    with: 5 for the mount holes and 56 for the shaft clearance. *)
Lemma main_reports_diameters (script_dir : Cli.Path) (cl : Cli.CommandLine) :
  exists d_mount d_center,
    In (Cli.Print (Cli.MountHoleDia d_mount))
       (Cli.effects (Cli.main script_dir cl))
    /\ In (Cli.Print (Cli.CenterClearanceDia d_center))
          (Cli.effects (Cli.main script_dir cl))
    /\ d_mount == 5 /\ d_center == 56
    /\ Forall (fun d => d == d_mount)
              (cutter_diameters
                 (Locals.hole_cutter
                    (build_l_bracket_frame
                       (Cli.motor_spec (Cli.main script_dir cl))
                       (Cli.params (Cli.main script_dir cl)))))
    /\ Forall (fun d => d == d_center)
              (cutter_diameters
                 (Locals.shaft_cutter
                    (build_l_bracket_frame
                       (Cli.motor_spec (Cli.main script_dir cl))
                       (Cli.params (Cli.main script_dir cl))))).
Proof.
  do 2 eexists. split; [ | split; [ | split; [ | split; [ | split]]]].
  - cbn. do 4 right. left. reflexivity.
  - cbn. do 5 right. left. reflexivity.
  - vm_compute. reflexivity.
  - vm_compute. reflexivity.
  - cbn. repeat constructor; vm_compute; reflexivity.
  - cbn. repeat constructor; vm_compute; reflexivity.
Qed.

(* ================================================================== *)
(** * Further properties of [build_l_bracket] and [main] *)

(** ** The parts in space *)


(** The four mount-hole centres in space. *)
Lemma hole_points_world (motor : MotorFixedSpec) (params : BracketParams) :
  Forall2 vec_eq
    (map (Geom.toWorldCoords
            (Locals.mount_plane (build_l_bracket_frame motor params)))
         (Locals.hole_points (build_l_bracket_frame motor params)))
    [ (thickness params,
       - (mount_hole_pitch motor / 2.0),
       Locals.mount_center_z (build_l_bracket_frame motor params)
       - mount_hole_pitch motor / 2.0);
      (thickness params,
       - (mount_hole_pitch motor / 2.0),
       Locals.mount_center_z (build_l_bracket_frame motor params)
       + mount_hole_pitch motor / 2.0);
      (thickness params,
       mount_hole_pitch motor / 2.0,
       Locals.mount_center_z (build_l_bracket_frame motor params)
       - mount_hole_pitch motor / 2.0);
      (thickness params,
       mount_hole_pitch motor / 2.0,
       Locals.mount_center_z (build_l_bracket_frame motor params)
       + mount_hole_pitch motor / 2.0) ].
Proof.
  unfold vec_eq. cbn. repeat constructor; cbn; q_arith.
Qed.

(* ------------------------------------------------------------------ *)
(** ** How the plate sizes follow the inputs *)



(* ------------------------------------------------------------------ *)
(** ** [main]: where the file goes and what is reported *)

(** X10.  What [main] reports is what it has cut, for every command
    line: the exported solid carries exactly two cutters; the first cuts
    four circles whose diameter is the reported mount hole diameter and
    whose centres are half the reported pitch from the mount centre along
    both axes; the second cuts one circle whose diameter is the reported
    centre clearance diameter. *)
Theorem X10_report_matches_solid
        (script_dir : Cli.Path) (cl : Cli.CommandLine) :
  exists hole_cutter shaft_cutter pitch d_mount d_center,
    Geom.tools (Cli.bracket (Cli.main script_dir cl))
    = [hole_cutter; shaft_cutter]
    /\ In (Cli.Export (Cli.bracket (Cli.main script_dir cl))
                      (Cli.out_path (Cli.main script_dir cl)))
          (Cli.effects (Cli.main script_dir cl))
    /\ In (Cli.Print (Cli.MountHolePitch pitch))
          (Cli.effects (Cli.main script_dir cl))
    /\ In (Cli.Print (Cli.MountHoleDia d_mount))
          (Cli.effects (Cli.main script_dir cl))
    /\ In (Cli.Print (Cli.CenterClearanceDia d_center))
          (Cli.effects (Cli.main script_dir cl))
    /\ List.length (cutter_centers hole_cutter) = 4%nat
    /\ Forall (fun c => (fst c == pitch / 2 \/ fst c == - (pitch / 2))
                        /\ (snd c == pitch / 2 \/ snd c == - (pitch / 2)))
              (cutter_centers hole_cutter)
    /\ Forall (fun d => d == d_mount) (cutter_diameters hole_cutter)
    /\ List.length (cutter_centers shaft_cutter) = 1%nat
    /\ Forall (fun d => d == d_center) (cutter_diameters shaft_cutter).
Proof.
  do 5 eexists.
  split; [reflexivity | ].
  split; [cbn; right; left; reflexivity | ].
  split; [cbn; do 3 right; left; reflexivity | ].
  split; [cbn; do 4 right; left; reflexivity | ].
  split; [cbn; do 5 right; left; reflexivity | ].
  split; [reflexivity | ].
  split; [ | split; [ | split; [reflexivity | ]]].
  - cbn. repeat constructor; cbn;
      first [left; vm_compute; reflexivity | right; vm_compute; reflexivity].
  - cbn. repeat constructor; vm_compute; reflexivity.
  - cbn. repeat constructor; vm_compute; reflexivity.
Qed.

(* ------------------------------------------------------------------ *)
(** ** Not-a-number inputs, in binary64 *)

(** Nothing validates the inputs, and [float("nan")] is a valid
    [--thickness].  These are the facts about NaN the sizing formulas
    meet. *)
Section NaN.

Local Open Scope float_scope.

Lemma Prim2SF_nan : Prim2SF nan = S754_nan.
Proof. reflexivity. Qed.

Lemma nan_of_spec (x : float) : Prim2SF x = S754_nan -> x = nan.
Proof. intros H. rewrite <- (SF2Prim_Prim2SF x), H. reflexivity. Qed.

Lemma ltb_nan_r (a : float) : (a <? nan) = false.
Proof.
  rewrite ltb_spec, Prim2SF_nan. unfold SFltb, SFcompare.
  destruct (Prim2SF a); reflexivity.
Qed.

Lemma ltb_nan_l (a : float) : (nan <? a) = false.
Proof. rewrite ltb_spec, Prim2SF_nan. reflexivity. Qed.

Lemma add_nan_r (a : float) : a + nan = nan.
Proof.
  apply nan_of_spec. rewrite add_spec, Prim2SF_nan. unfold SF64add, SFadd.
  destruct (Prim2SF a) as [ | [ | ] | | ]; reflexivity.
Qed.

Lemma add_nan_l (a : float) : nan + a = nan.
Proof. apply nan_of_spec. rewrite add_spec, Prim2SF_nan. reflexivity. Qed.

Lemma sub_nan_r (a : float) : a - nan = nan.
Proof.
  apply nan_of_spec. rewrite sub_spec, Prim2SF_nan. unfold SF64sub, SFsub.
  destruct (Prim2SF a) as [ | [ | ] | | ]; reflexivity.
Qed.

(** [max] and [min] drop a NaN second argument and keep a NaN first
    argument. *)
Lemma py_max_nan_r (a : float) : Binary64.py_max a nan = a.
Proof. unfold Binary64.py_max. now rewrite ltb_nan_r. Qed.

Lemma py_max_nan_l (b : float) : Binary64.py_max nan b = nan.
Proof. unfold Binary64.py_max. now rewrite ltb_nan_l. Qed.

Lemma py_min_nan_r (a : float) : Binary64.py_min a nan = a.
Proof. unfold Binary64.py_min. now rewrite ltb_nan_l. Qed.

(** X11.  A NaN thickness is not rejected: whatever the motor and the
    other parameters, mount_center_z and wall_height are then NaN. *)
Theorem X11_nan_thickness_propagates
        (motor : Binary64.MotorFixedSpec) (params : Binary64.BracketParams) :
  Binary64.thickness params = nan ->
  Binary64.mount_center_z (Binary64.build_l_bracket_frame motor params) = nan
  /\ Binary64.wall_height (Binary64.build_l_bracket_frame motor params) = nan.
Proof.
  intros H.
  assert (Hz : Binary64.mount_center_z
                 (Binary64.build_l_bracket_frame motor params) = nan).
  { cbn. rewrite H. now rewrite !add_nan_l. }
  split; [exact Hz | ].
  change (Binary64.wall_height (Binary64.build_l_bracket_frame motor params))
    with (Binary64.mount_center_z (Binary64.build_l_bracket_frame motor params)
          + Binary64.py_max
              (Binary64.flange_size motor / 2.0 + Binary64.top_margin params)
              (Binary64.mount_hole_pitch motor / 2.0
               + Binary64.hole_edge_margin params)).
  rewrite Hz. apply add_nan_l.
Qed.

Lemma X11_nan_thickness_propagates_witness :
  Binary64.wall_height
    (Binary64.build_l_bracket_frame Binary64.MotorFixedSpec_default
                                    (Binary64.BracketParams_of_thickness nan))
  = nan.
Proof.
  apply (X11_nan_thickness_propagates
           Binary64.MotorFixedSpec_default
           (Binary64.BracketParams_of_thickness nan)).
  reflexivity.
Defined.

(** X12.  A NaN hole_edge_margin is silently ignored: it sits in the
    second argument of each [max] and [min], which Python then drops.
    The wall is sized by the flange alone and the base-hole offset is
    not clamped. *)
Theorem X12_nan_margin_is_dropped
        (motor : Binary64.MotorFixedSpec) (params : Binary64.BracketParams) :
  Binary64.hole_edge_margin params = nan ->
  Binary64.wall_width (Binary64.build_l_bracket_frame motor params)
  = Binary64.flange_size motor + 2.0 * Binary64.body_clearance params
  /\ Binary64.wall_height (Binary64.build_l_bracket_frame motor params)
     = Binary64.mount_center_z (Binary64.build_l_bracket_frame motor params)
       + (Binary64.flange_size motor / 2.0 + Binary64.top_margin params)
  /\ Binary64.y_off (Binary64.build_l_bracket_frame motor params)
     = Binary64.py_max
         (Binary64.wall_width (Binary64.build_l_bracket_frame motor params)
          * Binary64.lit_0_28)
         (Binary64.base_hole_diameter params + 4.0).
Proof.
  intros H. cbn. rewrite H.
  change (2.0 * nan) with nan.
  rewrite !add_nan_r, !py_max_nan_r, sub_nan_r, add_nan_l, py_min_nan_r.
  repeat split.
Qed.

Lemma X12_nan_margin_is_dropped_witness :
  Binary64.wall_width
    (Binary64.build_l_bracket_frame
       Binary64.MotorFixedSpec_default
       (Binary64.mkBracketParams 5.0 nan 8.0 10.0 20.0 Binary64.lit_6_6 18.0))
  = 60.0 + 2.0 * 8.0.
Proof.
  apply (X12_nan_margin_is_dropped
           Binary64.MotorFixedSpec_default
           (Binary64.mkBracketParams 5.0 nan 8.0 10.0 20.0
                                     Binary64.lit_6_6 18.0)).
  reflexivity.
Defined.

End NaN.
